(** * Express HTTP status handler: the status catalog and the response value

    A shallow embedding of [http.status.ts] (the [StatusCode] enumeration and
    the [StatusMessages] table) and of [status.ts] (the [Status] class), and
    the properties of the populating operations proved over it.

    Modelling conventions.
    - A method of [Status] mutates its receiver and returns nothing; here it
      is a function from the receiver before the call to the receiver after
      it, written with the assignments in the order of the source.
    - The [code] field and every status code are integers ([Z]): the members
      of the enumeration are integer literals and the key of a table lookup
      is the decimal numeral of the code, which is injective on integers.
    - The payload is an arbitrary JavaScript value; the only thing the class
      ever asks of it is its truthiness ([ToBoolean]). *)

From Stdlib Require Import ZArith String List Bool Lia.
From Stdlib Require Import Floats.SpecFloat.
From Stdlib Require Import DecimalString DecimalZ.
From stdpp Require Import base option list gmap strings.

Local Open Scope Z_scope.
Local Open Scope string_scope.
#[local] Set Warnings "-register-all".

(** ** JavaScript values and truthiness *)

(** The values a payload can be. Numbers are IEEE 754 doubles; an object is
    kept as the list of its own properties. *)
Inductive JSValue : Type :=
| JSUndefined
| JSNull
| JSBoolean (b : bool)
| JSNumber (x : spec_float)
| JSString (s : string)
| JSObject (props : list (string * JSValue)).

(** Truthiness of a string: only the empty string is falsy. *)
Definition string_truthy (s : string) : bool :=
  match s with
  | EmptyString => false
  | String _ _ => true
  end.

(** Truthiness of a number: [+0], [-0] and [NaN] are falsy. *)
Definition number_truthy (x : spec_float) : bool :=
  match x with
  | S754_zero _ => false
  | S754_nan => false
  | S754_infinity _ => true
  | S754_finite _ _ _ => true
  end.

(** The test an [if (v)] statement performs on [v]. *)
Definition ToBoolean (v : JSValue) : bool :=
  match v with
  | JSUndefined => false
  | JSNull => false
  | JSBoolean b => b
  | JSNumber x => number_truthy x
  | JSString s => string_truthy s
  | JSObject _ => true
  end.

(** The number [0] as a JavaScript value. *)
Definition JSZero : JSValue := JSNumber (S754_zero false).

(** An object literal with integer keys, properties defined in source order:
    a later property with the same key replaces an earlier one. *)
Definition object_literal {V : Type} (props : list (Z * V)) : gmap Z V :=
  foldl (fun o kv => <[kv.1 := kv.2]> o) ∅ props.

(** ** The status code catalog ([http.status.ts]) *)

Module StatusCode.

(** [enum StatusCode]. *)
Inductive t : Set :=
(* 2xx: success *)
| OK
| CREATED
| ACCEPTED
| NON_AUTHORITATIVE
| NO_CONTENT
| RESET_CONTENT
| PARTIAL_CONTENT
(* 3xx: redirects *)
| MULTIPLE_CHOICES
| MOVED_PERMANENTLY
| FOUND
| SEE_OTHER
| NOT_MODIFIED
| TEMPORARY_REDIRECT
| PERMANENT_REDIRECT
(* 4xx: client errors *)
| BAD_REQUEST
| UNAUTHORIZED
| PAYMENT_REQUIRED
| FORBIDDEN
| NOT_FOUND
| METHOD_NOT_ALLOWED
| NOT_ACCEPTABLE
| PROXY_AUTH_REQUIRED
| REQUEST_TIMEOUT
| CONFLICT
| GONE
| LENGTH_REQUIRED
| PRECONDITION_FAILED
| PAYLOAD_TOO_LARGE
| URI_TOO_LONG
| UNSUPPORTED_MEDIA_TYPE
| RANGE_NOT_SATISFIABLE
| EXPECTATION_FAILED
| IM_A_TEAPOT
| MISDIRECTED_REQUEST
| UNPROCESSABLE_CONTENT
| LOCKED
| FAILED_DEPENDENCY
| TOO_EARLY
| UPGRADE_REQUIRED
| PRECONDITION_REQUIRED
| TOO_MANY_REQUESTS
| REQUEST_HEADER_FIELDS_TOO_LARGE
| UNAVAILABLE_FOR_LEGAL_REASONS
(* 5xx: server errors *)
| INTERNAL_SERVER_ERROR
| NOT_IMPLEMENTED
| BAD_GATEWAY
| SERVICE_UNAVAILABLE
| GATEWAY_TIMEOUT
| HTTP_VERSION_NOT_SUPPORTED
| VARIANT_ALSO_NEGOTIATES
| INSUFFICIENT_STORAGE
| LOOP_DETECTED
| NOT_EXTENDED
| NETWORK_AUTH_REQUIRED.

(** The number each member of the enumeration stands for. *)
Definition value (c : t) : Z :=
  match c with
  | OK => 200
  | CREATED => 201
  | ACCEPTED => 202
  | NON_AUTHORITATIVE => 203
  | NO_CONTENT => 204
  | RESET_CONTENT => 205
  | PARTIAL_CONTENT => 206
  | MULTIPLE_CHOICES => 300
  | MOVED_PERMANENTLY => 301
  | FOUND => 302
  | SEE_OTHER => 303
  | NOT_MODIFIED => 304
  | TEMPORARY_REDIRECT => 307
  | PERMANENT_REDIRECT => 308
  | BAD_REQUEST => 400
  | UNAUTHORIZED => 401
  | PAYMENT_REQUIRED => 402
  | FORBIDDEN => 403
  | NOT_FOUND => 404
  | METHOD_NOT_ALLOWED => 405
  | NOT_ACCEPTABLE => 406
  | PROXY_AUTH_REQUIRED => 407
  | REQUEST_TIMEOUT => 408
  | CONFLICT => 409
  | GONE => 410
  | LENGTH_REQUIRED => 411
  | PRECONDITION_FAILED => 412
  | PAYLOAD_TOO_LARGE => 413
  | URI_TOO_LONG => 414
  | UNSUPPORTED_MEDIA_TYPE => 415
  | RANGE_NOT_SATISFIABLE => 416
  | EXPECTATION_FAILED => 417
  | IM_A_TEAPOT => 418
  | MISDIRECTED_REQUEST => 421
  | UNPROCESSABLE_CONTENT => 422
  | LOCKED => 423
  | FAILED_DEPENDENCY => 424
  | TOO_EARLY => 425
  | UPGRADE_REQUIRED => 426
  | PRECONDITION_REQUIRED => 428
  | TOO_MANY_REQUESTS => 429
  | REQUEST_HEADER_FIELDS_TOO_LARGE => 431
  | UNAVAILABLE_FOR_LEGAL_REASONS => 451
  | INTERNAL_SERVER_ERROR => 500
  | NOT_IMPLEMENTED => 501
  | BAD_GATEWAY => 502
  | SERVICE_UNAVAILABLE => 503
  | GATEWAY_TIMEOUT => 504
  | HTTP_VERSION_NOT_SUPPORTED => 505
  | VARIANT_ALSO_NEGOTIATES => 506
  | INSUFFICIENT_STORAGE => 507
  | LOOP_DETECTED => 508
  | NOT_EXTENDED => 510
  | NETWORK_AUTH_REQUIRED => 511
  end.

End StatusCode.

(** The properties of the [StatusMessages] literal, in the order of the
    source. *)
Definition StatusMessages_literal : list (Z * string) :=
  [ (StatusCode.value StatusCode.OK,
      "Request succeeded.");
    (StatusCode.value StatusCode.CREATED,
      "Resource created successfully.");
    (StatusCode.value StatusCode.ACCEPTED,
      "Request accepted and is being processed.");
    (StatusCode.value StatusCode.NON_AUTHORITATIVE,
      "Non-authoritative information.");
    (StatusCode.value StatusCode.RESET_CONTENT,
      "Reset content.");
    (StatusCode.value StatusCode.PARTIAL_CONTENT,
      "Partial content delivered.");
    (StatusCode.value StatusCode.MULTIPLE_CHOICES,
      "Multiple choices available.");
    (StatusCode.value StatusCode.MOVED_PERMANENTLY,
      "Resource moved permanently.");
    (StatusCode.value StatusCode.FOUND,
      "Resource found at another location.");
    (StatusCode.value StatusCode.SEE_OTHER,
      "See another resource.");
    (StatusCode.value StatusCode.NOT_MODIFIED,
      "Not modified since last request.");
    (StatusCode.value StatusCode.TEMPORARY_REDIRECT,
      "Temporary redirect.");
    (StatusCode.value StatusCode.PERMANENT_REDIRECT,
      "Permanent redirect.");
    (StatusCode.value StatusCode.NOT_ACCEPTABLE,
      "Not acceptable response format.");
    (StatusCode.value StatusCode.PROXY_AUTH_REQUIRED,
      "Proxy authentication required.");
    (StatusCode.value StatusCode.LENGTH_REQUIRED,
      "Content length header required.");
    (StatusCode.value StatusCode.PRECONDITION_FAILED,
      "Precondition failed.");
    (StatusCode.value StatusCode.URI_TOO_LONG,
      "URI too long.");
    (StatusCode.value StatusCode.RANGE_NOT_SATISFIABLE,
      "Requested range not satisfiable.");
    (StatusCode.value StatusCode.EXPECTATION_FAILED,
      "Expectation failed.");
    (StatusCode.value StatusCode.IM_A_TEAPOT,
      "I'm a teapot.");
    (StatusCode.value StatusCode.MISDIRECTED_REQUEST,
      "Request was misdirected.");
    (StatusCode.value StatusCode.UNPROCESSABLE_CONTENT,
      "Unprocessable content.");
    (StatusCode.value StatusCode.LOCKED,
      "Resource is locked.");
    (StatusCode.value StatusCode.FAILED_DEPENDENCY,
      "Failed dependency.");
    (StatusCode.value StatusCode.TOO_EARLY,
      "Request too early.");
    (StatusCode.value StatusCode.UPGRADE_REQUIRED,
      "Upgrade required.");
    (StatusCode.value StatusCode.PRECONDITION_REQUIRED,
      "Precondition required.");
    (StatusCode.value StatusCode.REQUEST_HEADER_FIELDS_TOO_LARGE,
      "Request header fields too large.");
    (StatusCode.value StatusCode.UNAVAILABLE_FOR_LEGAL_REASONS,
      "Unavailable for legal reasons.");
    (StatusCode.value StatusCode.HTTP_VERSION_NOT_SUPPORTED,
      "HTTP version not supported.");
    (StatusCode.value StatusCode.VARIANT_ALSO_NEGOTIATES,
      "Variant negotiation failed.");
    (StatusCode.value StatusCode.INSUFFICIENT_STORAGE,
      "Insufficient storage.");
    (StatusCode.value StatusCode.LOOP_DETECTED,
      "Loop detected.");
    (StatusCode.value StatusCode.NOT_EXTENDED,
      "Not extended.");
    (StatusCode.value StatusCode.NETWORK_AUTH_REQUIRED,
      "Network authentication required.");
    (StatusCode.value StatusCode.NO_CONTENT,
      "Request succeeded, no content to return.");
    (StatusCode.value StatusCode.BAD_REQUEST,
      "Bad request. Please check your input.");
    (StatusCode.value StatusCode.UNAUTHORIZED,
      "Unauthorized. Please log in.");
    (StatusCode.value StatusCode.PAYMENT_REQUIRED,
      "Payment required.");
    (StatusCode.value StatusCode.FORBIDDEN,
      "Forbidden. You do not have access.");
    (StatusCode.value StatusCode.NOT_FOUND,
      "Resource not found.");
    (StatusCode.value StatusCode.METHOD_NOT_ALLOWED,
      "Method not allowed.");
    (StatusCode.value StatusCode.REQUEST_TIMEOUT,
      "Request timed out.");
    (StatusCode.value StatusCode.CONFLICT,
      "Conflict. This resource already exists or cannot be processed.");
    (StatusCode.value StatusCode.GONE,
      "Resource is gone and will not return.");
    (StatusCode.value StatusCode.PAYLOAD_TOO_LARGE,
      "Request payload too large.");
    (StatusCode.value StatusCode.UNSUPPORTED_MEDIA_TYPE,
      "Unsupported media type.");
    (StatusCode.value StatusCode.TOO_MANY_REQUESTS,
      "Too many requests. Please try again later.");
    (StatusCode.value StatusCode.INTERNAL_SERVER_ERROR,
      "Internal server error.");
    (StatusCode.value StatusCode.NOT_IMPLEMENTED,
      "Feature not implemented.");
    (StatusCode.value StatusCode.BAD_GATEWAY,
      "Bad gateway.");
    (StatusCode.value StatusCode.SERVICE_UNAVAILABLE,
      "Server is currently unavailable or overloaded.");
    (StatusCode.value StatusCode.GATEWAY_TIMEOUT,
      "Server gateway timed out.") ].

(** [const StatusMessages: Record<StatusCode, string>]. *)
Definition StatusMessages : gmap Z string :=
  object_literal StatusMessages_literal.

(** ** Errors and partial statuses ([status.ts]) *)

(** The built-in [Error]: the class reads only [message]. *)
Module Error.
Record t : Type := mk { name : string; message : string; stack : option string }.
End Error.

(** [interface IHttpError extends Error { code: number }]. *)
Module IHttpError.
Record t : Type :=
  mk { name : string; message : string; stack : option string; code : Z }.
End IHttpError.

(** [Partial<IStatus<T>>]: each property of [IStatus] may be missing; a
    missing property reads as [undefined]. *)
Module PartialIStatus.
Record t : Type :=
  mk { code : option Z;
       success : option bool;
       message : option string;
       payload : option JSValue }.

(** The object literal [{}]. *)
Definition empty : t :=
  {| code := None; success := None; message := None; payload := None |}.
End PartialIStatus.

(** ** The response status value ([class Status]) *)

(** The four fields of the class (and of [IStatus]). *)
Record Status : Type :=
  mkStatus { code : Z; success : bool; message : string; payload : JSValue }.

(** Field assignments [this.f = v]. *)
Definition assign_code (v : Z) (this : Status) : Status :=
  {| code := v; success := success this;
     message := message this; payload := payload this |}.

Definition assign_success (v : bool) (this : Status) : Status :=
  {| code := code this; success := v;
     message := message this; payload := payload this |}.

Definition assign_message (v : string) (this : Status) : Status :=
  {| code := code this; success := success this;
     message := v; payload := payload this |}.

Definition assign_payload (v : JSValue) (this : Status) : Status :=
  {| code := code this; success := success this;
     message := message this; payload := v |}.

(** [constructor()]. *)
Definition new_Status : Status :=
  {| code := 400; success := false; message := ""; payload := JSNull |}.

(** [private set({ message, payload })]: the destructuring reads the two
    properties ([undefined] when missing), and each one is assigned only
    when it is truthy. *)
Definition set (options : PartialIStatus.t) (this : Status) : Status :=
  let message := PartialIStatus.message options in
  let payload := default JSUndefined (PartialIStatus.payload options) in
  let this :=
    match message with
    | Some m => if string_truthy m then assign_message m this else this
    | None => this
    end in
  if ToBoolean payload then assign_payload payload this else this.

(** [successStatus(success, payload?)]; an omitted [payload] is
    [JSUndefined]. *)
Definition successStatus (success : Z) (payload : JSValue) (this : Status)
  : Status :=
  let this := assign_code success this in
  let this := assign_success true this in
  set {| PartialIStatus.code := None;
         PartialIStatus.success := None;
         PartialIStatus.message := StatusMessages !! success;
         PartialIStatus.payload := Some payload |} this.

(** [errorStatus(error)]. *)
Definition errorStatus (error : Z) (this : Status) : Status :=
  let this := assign_code error this in
  let this := assign_success false this in
  let this := assign_payload JSNull this in
  set {| PartialIStatus.code := None;
         PartialIStatus.success := None;
         PartialIStatus.message := StatusMessages !! error;
         PartialIStatus.payload := None |} this.

(** [static ERR(error)]. *)
Definition ERR (error : Z) : Status :=
  let status := new_Status in
  let status := errorStatus error status in
  status.

(** [static SUCCESS(success, payload)]. *)
Definition SUCCESS (success : Z) (payload : JSValue) : Status :=
  let status := new_Status in
  let status := successStatus success payload status in
  status.

(** [error(err)]. *)
Definition error (err : IHttpError.t) (this : Status) : Status :=
  let this := assign_code (IHttpError.code err) this in
  let this := assign_success false this in
  let this := assign_payload JSNull this in
  set {| PartialIStatus.code := None;
         PartialIStatus.success := None;
         PartialIStatus.message := Some (IHttpError.message err);
         PartialIStatus.payload := None |} this.

(** [successOK(options)]. *)
Definition successOK (options : PartialIStatus.t) (this : Status) : Status :=
  let this := assign_code (StatusCode.value StatusCode.OK) this in
  let this := assign_success true this in
  set options this.

(** [genericError(err)]. *)
Definition genericError (err : Error.t) (this : Status) : Status :=
  let this :=
    assign_code (StatusCode.value StatusCode.INTERNAL_SERVER_ERROR) this in
  let this := assign_success false this in
  let this := assign_payload JSNull this in
  set {| PartialIStatus.code := None;
         PartialIStatus.success := None;
         PartialIStatus.message := Some (Error.message err);
         PartialIStatus.payload := None |} this.

(** ** Populating operations as data *)

(** One call of a populating method, with its arguments. *)
Inductive Op : Type :=
| CallSuccessStatus (success : Z) (payload : JSValue)
| CallSuccessOK (options : PartialIStatus.t)
| CallErrorStatus (error : Z)
| CallError (err : IHttpError.t)
| CallGenericError (err : Error.t).

Definition call (op : Op) (this : Status) : Status :=
  match op with
  | CallSuccessStatus c p => successStatus c p this
  | CallSuccessOK o => successOK o this
  | CallErrorStatus c => errorStatus c this
  | CallError e => error e this
  | CallGenericError e => genericError e this
  end.

(** The states a value object can be in: freshly constructed, or obtained
    from such a state by one more populating call. *)
Inductive reachable : Status -> Prop :=
| reachable_new : reachable new_Status
| reachable_call op this : reachable this -> reachable (call op this).

(** ** Notions the properties are stated with *)

(** The default message of a member of the enumeration; the empty string
    would stand for a missing entry. *)
Definition default_message (c : StatusCode.t) : string :=
  default "" (StatusMessages !! StatusCode.value c).

(** A valid HTTP status code lies in the range 100..599. *)
Definition valid_http_status (c : Z) : bool :=
  (100 <=? c)%Z && (c <=? 599)%Z.

(** How many properties of an object literal have the key [k]. *)
Definition entries_for {V : Type} (k : Z) (props : list (Z * V)) : nat :=
  length (filter (fun kv => kv.1 = k) props).

(** What [set] leaves in the [message] field. *)
Definition merged_message (options : PartialIStatus.t) (this : Status)
  : string :=
  match PartialIStatus.message options with
  | Some m => if string_truthy m then m else message this
  | None => message this
  end.

(** What [set] leaves in the [payload] field. *)
Definition merged_payload (options : PartialIStatus.t) (this : Status)
  : JSValue :=
  match PartialIStatus.payload options with
  | Some p => if ToBoolean p then p else payload this
  | None => payload this
  end.

(** ** The compiled enumeration ([dist/http.status.js]) *)

(** The name of each member, as the compiled code spells it. *)
Definition StatusCode_name (c : StatusCode.t) : string :=
  match c with
  | StatusCode.OK => "OK"
  | StatusCode.CREATED => "CREATED"
  | StatusCode.ACCEPTED => "ACCEPTED"
  | StatusCode.NON_AUTHORITATIVE => "NON_AUTHORITATIVE"
  | StatusCode.NO_CONTENT => "NO_CONTENT"
  | StatusCode.RESET_CONTENT => "RESET_CONTENT"
  | StatusCode.PARTIAL_CONTENT => "PARTIAL_CONTENT"
  | StatusCode.MULTIPLE_CHOICES => "MULTIPLE_CHOICES"
  | StatusCode.MOVED_PERMANENTLY => "MOVED_PERMANENTLY"
  | StatusCode.FOUND => "FOUND"
  | StatusCode.SEE_OTHER => "SEE_OTHER"
  | StatusCode.NOT_MODIFIED => "NOT_MODIFIED"
  | StatusCode.TEMPORARY_REDIRECT => "TEMPORARY_REDIRECT"
  | StatusCode.PERMANENT_REDIRECT => "PERMANENT_REDIRECT"
  | StatusCode.BAD_REQUEST => "BAD_REQUEST"
  | StatusCode.UNAUTHORIZED => "UNAUTHORIZED"
  | StatusCode.PAYMENT_REQUIRED => "PAYMENT_REQUIRED"
  | StatusCode.FORBIDDEN => "FORBIDDEN"
  | StatusCode.NOT_FOUND => "NOT_FOUND"
  | StatusCode.METHOD_NOT_ALLOWED => "METHOD_NOT_ALLOWED"
  | StatusCode.NOT_ACCEPTABLE => "NOT_ACCEPTABLE"
  | StatusCode.PROXY_AUTH_REQUIRED => "PROXY_AUTH_REQUIRED"
  | StatusCode.REQUEST_TIMEOUT => "REQUEST_TIMEOUT"
  | StatusCode.CONFLICT => "CONFLICT"
  | StatusCode.GONE => "GONE"
  | StatusCode.LENGTH_REQUIRED => "LENGTH_REQUIRED"
  | StatusCode.PRECONDITION_FAILED => "PRECONDITION_FAILED"
  | StatusCode.PAYLOAD_TOO_LARGE => "PAYLOAD_TOO_LARGE"
  | StatusCode.URI_TOO_LONG => "URI_TOO_LONG"
  | StatusCode.UNSUPPORTED_MEDIA_TYPE => "UNSUPPORTED_MEDIA_TYPE"
  | StatusCode.RANGE_NOT_SATISFIABLE => "RANGE_NOT_SATISFIABLE"
  | StatusCode.EXPECTATION_FAILED => "EXPECTATION_FAILED"
  | StatusCode.IM_A_TEAPOT => "IM_A_TEAPOT"
  | StatusCode.MISDIRECTED_REQUEST => "MISDIRECTED_REQUEST"
  | StatusCode.UNPROCESSABLE_CONTENT => "UNPROCESSABLE_CONTENT"
  | StatusCode.LOCKED => "LOCKED"
  | StatusCode.FAILED_DEPENDENCY => "FAILED_DEPENDENCY"
  | StatusCode.TOO_EARLY => "TOO_EARLY"
  | StatusCode.UPGRADE_REQUIRED => "UPGRADE_REQUIRED"
  | StatusCode.PRECONDITION_REQUIRED => "PRECONDITION_REQUIRED"
  | StatusCode.TOO_MANY_REQUESTS => "TOO_MANY_REQUESTS"
  | StatusCode.REQUEST_HEADER_FIELDS_TOO_LARGE => "REQUEST_HEADER_FIELDS_TOO_LARGE"
  | StatusCode.UNAVAILABLE_FOR_LEGAL_REASONS => "UNAVAILABLE_FOR_LEGAL_REASONS"
  | StatusCode.INTERNAL_SERVER_ERROR => "INTERNAL_SERVER_ERROR"
  | StatusCode.NOT_IMPLEMENTED => "NOT_IMPLEMENTED"
  | StatusCode.BAD_GATEWAY => "BAD_GATEWAY"
  | StatusCode.SERVICE_UNAVAILABLE => "SERVICE_UNAVAILABLE"
  | StatusCode.GATEWAY_TIMEOUT => "GATEWAY_TIMEOUT"
  | StatusCode.HTTP_VERSION_NOT_SUPPORTED => "HTTP_VERSION_NOT_SUPPORTED"
  | StatusCode.VARIANT_ALSO_NEGOTIATES => "VARIANT_ALSO_NEGOTIATES"
  | StatusCode.INSUFFICIENT_STORAGE => "INSUFFICIENT_STORAGE"
  | StatusCode.LOOP_DETECTED => "LOOP_DETECTED"
  | StatusCode.NOT_EXTENDED => "NOT_EXTENDED"
  | StatusCode.NETWORK_AUTH_REQUIRED => "NETWORK_AUTH_REQUIRED"
  end.

(** The members in the order of their declaration. *)
Definition StatusCode_members : list StatusCode.t :=
  [ StatusCode.OK;
    StatusCode.CREATED;
    StatusCode.ACCEPTED;
    StatusCode.NON_AUTHORITATIVE;
    StatusCode.NO_CONTENT;
    StatusCode.RESET_CONTENT;
    StatusCode.PARTIAL_CONTENT;
    StatusCode.MULTIPLE_CHOICES;
    StatusCode.MOVED_PERMANENTLY;
    StatusCode.FOUND;
    StatusCode.SEE_OTHER;
    StatusCode.NOT_MODIFIED;
    StatusCode.TEMPORARY_REDIRECT;
    StatusCode.PERMANENT_REDIRECT;
    StatusCode.BAD_REQUEST;
    StatusCode.UNAUTHORIZED;
    StatusCode.PAYMENT_REQUIRED;
    StatusCode.FORBIDDEN;
    StatusCode.NOT_FOUND;
    StatusCode.METHOD_NOT_ALLOWED;
    StatusCode.NOT_ACCEPTABLE;
    StatusCode.PROXY_AUTH_REQUIRED;
    StatusCode.REQUEST_TIMEOUT;
    StatusCode.CONFLICT;
    StatusCode.GONE;
    StatusCode.LENGTH_REQUIRED;
    StatusCode.PRECONDITION_FAILED;
    StatusCode.PAYLOAD_TOO_LARGE;
    StatusCode.URI_TOO_LONG;
    StatusCode.UNSUPPORTED_MEDIA_TYPE;
    StatusCode.RANGE_NOT_SATISFIABLE;
    StatusCode.EXPECTATION_FAILED;
    StatusCode.IM_A_TEAPOT;
    StatusCode.MISDIRECTED_REQUEST;
    StatusCode.UNPROCESSABLE_CONTENT;
    StatusCode.LOCKED;
    StatusCode.FAILED_DEPENDENCY;
    StatusCode.TOO_EARLY;
    StatusCode.UPGRADE_REQUIRED;
    StatusCode.PRECONDITION_REQUIRED;
    StatusCode.TOO_MANY_REQUESTS;
    StatusCode.REQUEST_HEADER_FIELDS_TOO_LARGE;
    StatusCode.UNAVAILABLE_FOR_LEGAL_REASONS;
    StatusCode.INTERNAL_SERVER_ERROR;
    StatusCode.NOT_IMPLEMENTED;
    StatusCode.BAD_GATEWAY;
    StatusCode.SERVICE_UNAVAILABLE;
    StatusCode.GATEWAY_TIMEOUT;
    StatusCode.HTTP_VERSION_NOT_SUPPORTED;
    StatusCode.VARIANT_ALSO_NEGOTIATES;
    StatusCode.INSUFFICIENT_STORAGE;
    StatusCode.LOOP_DETECTED;
    StatusCode.NOT_EXTENDED;
    StatusCode.NETWORK_AUTH_REQUIRED ].

(** What a property of the compiled enumeration object holds: the number of
    a member (under its name) or the name of a member (under its number). *)
Inductive EnumProperty : Type :=
| EnumNumber (v : Z)
| EnumName (n : string).

(** The property key of an integer: its decimal numeral. *)
Definition ToPropertyKey (v : Z) : string :=
  NilEmpty.string_of_int (Z.to_int v).

(** One statement [StatusCode[StatusCode["NAME"] = v] = "NAME";]: the inner
    assignment first, then the reverse one. *)
Definition enum_member (o : gmap string EnumProperty) (c : StatusCode.t)
  : gmap string EnumProperty :=
  let o := <[StatusCode_name c := EnumNumber (StatusCode.value c)]> o in
  <[ToPropertyKey (StatusCode.value c) := EnumName (StatusCode_name c)]> o.

(** [var StatusCode] once the initialising function has run on [{}]. *)
Definition StatusCode_object : gmap string EnumProperty :=
  foldl enum_member ∅ StatusCode_members.

(** ** Sequences of populating calls *)

(** The calls of [ops] made one after the other on [this]. *)
Definition run (ops : list Op) (this : Status) : Status :=
  foldl (fun s op => call op s) this ops.


(** ** Sample evaluations *)

Example ex_lookup : StatusMessages !! 404 = Some "Resource not found.".
Proof. reflexivity. Qed.
Example ex_created :
  successStatus 201 (JSString "x") new_Status
  = mkStatus 201 true "Resource created successfully." (JSString "x").
Proof. reflexivity. Qed.
Example ex_key : ToPropertyKey 404 = "404".
Proof. reflexivity. Qed.
Example ex_reverse :
  StatusCode_object !! ToPropertyKey 404 = Some (EnumName "NOT_FOUND").
Proof. vm_compute. reflexivity. Qed.
Example ex_ok_empty :
  successOK PartialIStatus.empty new_Status = mkStatus 200 true "" JSNull.
Proof. reflexivity. Qed.

(** ** The merge helper [set] *)

Section SetHelper.
Variables (options : PartialIStatus.t) (this : Status).

Lemma set_fields :
  set options this
  = mkStatus (code this) (success this)
      (merged_message options this) (merged_payload options this).
Proof.
  unfold set, merged_message, merged_payload.
  destruct this as [c b m p], options as [oc ob [om|] [op|]]; cbn;
    repeat match goal with
           | |- context [string_truthy ?x] => destruct (string_truthy x)
           | |- context [ToBoolean ?x] => destruct (ToBoolean x)
           end; reflexivity.
Qed.

Lemma set_code : code (set options this) = code this.
Proof. now rewrite set_fields. Qed.

Lemma set_success : success (set options this) = success this.
Proof. now rewrite set_fields. Qed.

Lemma set_message :
  message (set options this) = merged_message options this.
Proof. now rewrite set_fields. Qed.

Lemma set_payload :
  payload (set options this) = merged_payload options this.
Proof. now rewrite set_fields. Qed.

End SetHelper.

(** Merging the same options a second time changes nothing. *)
Lemma set_set (options : PartialIStatus.t) (this : Status) :
  set options (set options this) = set options this.
Proof.
  rewrite !set_fields. unfold merged_message, merged_payload; cbn.
  destruct options as [oc ob [om|] [op|]]; cbn;
    repeat match goal with
           | |- context [string_truthy ?x] => destruct (string_truthy x)
           | |- context [ToBoolean ?x] => destruct (ToBoolean x)
           end; reflexivity.
Qed.

(** [set] sees only the fields it may overwrite: an assignment to [code] or
    [success] made before the merge can as well be made after it. *)
Lemma set_assign_code (options : PartialIStatus.t) (v : Z) (this : Status) :
  set options (assign_code v this) = assign_code v (set options this).
Proof. now rewrite !set_fields. Qed.

Lemma set_assign_success (options : PartialIStatus.t) (v : bool)
  (this : Status) :
  set options (assign_success v this) = assign_success v (set options this).
Proof. now rewrite !set_fields. Qed.

(** ** The catalog *)

(** A property read from an object literal was written in it. *)
Lemma object_literal_lookup {V : Type} (props : list (Z * V)) (k : Z) (v : V) :
  object_literal props !! k = Some v -> (k, v) ∈ props.
Proof.
  unfold object_literal.
  assert (G : forall (o : gmap Z V),
             foldl (fun o kv => <[kv.1 := kv.2]> o) o props !! k = Some v ->
             (k, v) ∈ props \/ o !! k = Some v).
  { induction props as [|[k' v'] props IH]; intros o H; cbn in H.
    - now right.
    - destruct (IH _ H) as [Hin|Hlk].
      + left. apply elem_of_cons. now right.
      + cbn in Hlk. destruct (decide (k' = k)) as [->|Hne].
        * rewrite lookup_insert_eq in Hlk. inversion Hlk; subst.
          left. apply elem_of_cons. now left.
        * rewrite lookup_insert_ne in Hlk by assumption. now right. }
  intros H. destruct (G ∅ H) as [Hin|Hlk]; [assumption|].
  rewrite lookup_empty in Hlk. discriminate.
Qed.

(** Every member of the enumeration has a message, and it is not empty. *)
Lemma StatusMessages_member (c : StatusCode.t) :
  StatusMessages !! StatusCode.value c = Some (default_message c)
  /\ string_truthy (default_message c) = true.
Proof. destruct c; split; vm_compute; reflexivity. Qed.

(** The keys of the table are values of the enumeration. *)
Lemma StatusMessages_keys (k : Z) (m : string) :
  StatusMessages !! k = Some m -> exists c, StatusCode.value c = k.
Proof.
  intros H. apply object_literal_lookup in H.
  unfold StatusMessages_literal in H.
  repeat (apply elem_of_cons in H as [H|H];
          [apply (f_equal fst) in H; cbn [fst] in H; rewrite H;
           eexists; reflexivity|]).
  now apply elem_of_nil in H.
Qed.

(** A code outside the enumeration misses the table. *)
Lemma StatusMessages_miss (k : Z) :
  (forall c, StatusCode.value c <> k) -> StatusMessages !! k = None.
Proof.
  intros H. destruct (StatusMessages !! k) as [m|] eqn:E; [|reflexivity].
  destruct (StatusMessages_keys _ _ E) as [c Hc]. now apply H in Hc.
Qed.

(** Truthiness of a string is non-emptiness. *)
Lemma string_truthy_nonempty (m : string) :
  string_truthy m = negb (String.eqb m "").
Proof. now destruct m. Qed.

(** ** What each populating method leaves in the four fields *)

Lemma successStatus_fields (c : Z) (p : JSValue) (s : Status) :
  successStatus c p s
  = mkStatus c true
      (match StatusMessages !! c with
       | Some m => if string_truthy m then m else message s
       | None => message s
       end)
      (if ToBoolean p then p else payload s).
Proof.
  unfold successStatus. rewrite set_fields.
  unfold merged_message, merged_payload; cbn [PartialIStatus.message
    PartialIStatus.payload code success message payload assign_code
    assign_success].
  reflexivity.
Qed.

Lemma errorStatus_fields (c : Z) (s : Status) :
  errorStatus c s
  = mkStatus c false
      (match StatusMessages !! c with
       | Some m => if string_truthy m then m else message s
       | None => message s
       end)
      JSNull.
Proof.
  unfold errorStatus. rewrite set_fields.
  unfold merged_message, merged_payload; cbn [PartialIStatus.message
    PartialIStatus.payload code success message payload assign_code
    assign_success assign_payload].
  reflexivity.
Qed.

Lemma error_fields (e : IHttpError.t) (s : Status) :
  error e s
  = mkStatus (IHttpError.code e) false
      (if string_truthy (IHttpError.message e)
       then IHttpError.message e else message s)
      JSNull.
Proof. unfold error. now rewrite set_fields. Qed.

Lemma genericError_fields (e : Error.t) (s : Status) :
  genericError e s
  = mkStatus 500 false
      (if string_truthy (Error.message e) then Error.message e else message s)
      JSNull.
Proof. unfold genericError. now rewrite set_fields. Qed.

(** In [successOK] the merge could as well come first. *)
Lemma successOK_merge_first (o : PartialIStatus.t) (s : Status) :
  successOK o s = assign_success true (assign_code 200 (set o s)).
Proof.
  unfold successOK. now rewrite set_assign_success, set_assign_code.
Qed.

Lemma successOK_fields (o : PartialIStatus.t) (s : Status) :
  successOK o s = mkStatus 200 true (merged_message o s) (merged_payload o s).
Proof. unfold successOK. now rewrite set_fields. Qed.

(** ** Properties of the catalog and of the populating methods *)

(** C1. For every member [c] of [StatusCode], every payload argument [p] and
    every starting state [s], [successStatus(c, p)] sets [code] to [c], sets
    [success] to [true], sets [message] to the catalog message of [c], and
    sets [payload] to [p] exactly when [p] is truthy; when [p] is zero, the
    empty string, [false], [null] or absent, the previous payload stays. *)
Theorem successStatus_populates (c : StatusCode.t) (p : JSValue) (s : Status) :
  let k := StatusCode.value c in
  code (successStatus k p s) = k
  /\ success (successStatus k p s) = true
  /\ StatusMessages !! k = Some (message (successStatus k p s))
  /\ payload (successStatus k p s) = (if ToBoolean p then p else payload s)
  /\ payload (successStatus k JSZero s) = payload s
  /\ payload (successStatus k (JSString "") s) = payload s
  /\ payload (successStatus k (JSBoolean false) s) = payload s
  /\ payload (successStatus k JSNull s) = payload s
  /\ payload (successStatus k JSUndefined s) = payload s.
Proof.
  intros k. destruct (StatusMessages_member c) as [Hm Ht]. fold k in Hm.
  rewrite !successStatus_fields, Hm, Ht. cbn.
  repeat split; reflexivity.
Qed.

(** C2. For every member [c] of [StatusCode] and every starting state [s],
    [errorStatus(c)] sets [code] to [c], [success] to [false], [payload] to
    [null] whatever it was, and [message] to the catalog message of [c];
    [errorStatus(NOT_FOUND)] yields
    [{code: 404, success: false, message: "Resource not found.",
      payload: null}]. *)
Theorem errorStatus_populates (c : StatusCode.t) (s : Status) :
  errorStatus (StatusCode.value c) s
  = mkStatus (StatusCode.value c) false (default_message c) JSNull
  /\ StatusMessages !! StatusCode.value c = Some (default_message c)
  /\ errorStatus (StatusCode.value StatusCode.NOT_FOUND) s
     = mkStatus 404 false "Resource not found." JSNull.
Proof.
  destruct (StatusMessages_member c) as [Hm Ht].
  destruct (StatusMessages_member StatusCode.NOT_FOUND) as [Hm' Ht'].
  rewrite !errorStatus_fields, Hm, Ht, Hm', Ht'.
  repeat split; reflexivity.
Qed.

(** C3. The [StatusMessages] table is total over [StatusCode]: for every
    member [c], the literal has exactly one property for [c], and its value
    is a non-empty string, so a lookup with a key of the enumeration never
    misses. *)
Theorem StatusMessages_total (c : StatusCode.t) :
  entries_for (StatusCode.value c) StatusMessages_literal = 1%nat
  /\ exists m : string,
       StatusMessages !! StatusCode.value c = Some m /\ m <> "".
Proof.
  split.
  - destruct c; vm_compute; reflexivity.
  - exists (default_message c).
    destruct (StatusMessages_member c) as [Hm Ht]. split; [exact Hm|].
    intros E. rewrite E in Ht. discriminate.
Qed.

(** The values of the enumeration are valid HTTP status codes. *)
Lemma StatusCode_value_valid (c : StatusCode.t) :
  valid_http_status (StatusCode.value c) = true.
Proof. now destruct c. Qed.

(** C4, as stated, fails: [error] stores the code of a custom error without
    looking at it, so [error({code: 9999, message: "x"})] on a fresh object
    leaves a [code] outside 100..599. *)
Lemma error_code_not_validated :
  code (error (IHttpError.mk "Error" "x" None 9999) new_Status) = 9999
  /\ valid_http_status
       (code (error (IHttpError.mk "Error" "x" None 9999) new_Status))
     = false.
Proof. split; reflexivity. Qed.

(** C4, amended. After [successStatus], [errorStatus], [SUCCESS] or [ERR]
    with a member of [StatusCode], and after [successOK] or [genericError]
    with any argument, [code] is a valid HTTP status code (in 100..599).
    After [error(e)], [code] is the code of [e] as given, and so is valid
    exactly when that one is. *)
Theorem populated_code_valid
  (c : StatusCode.t) (p : JSValue) (o : PartialIStatus.t)
  (e : IHttpError.t) (g : Error.t) (s : Status) :
  valid_http_status (code (successStatus (StatusCode.value c) p s)) = true
  /\ valid_http_status (code (successOK o s)) = true
  /\ valid_http_status (code (errorStatus (StatusCode.value c) s)) = true
  /\ valid_http_status (code (genericError g s)) = true
  /\ valid_http_status (code (SUCCESS (StatusCode.value c) p)) = true
  /\ valid_http_status (code (ERR (StatusCode.value c))) = true
  /\ code (error e s) = IHttpError.code e
  /\ valid_http_status (code (error e s))
     = valid_http_status (IHttpError.code e).
Proof.
  unfold SUCCESS, ERR.
  rewrite !successStatus_fields, !errorStatus_fields, successOK_fields,
    genericError_fields, error_fields.
  cbn [code]. rewrite StatusCode_value_valid.
  repeat split; reflexivity.
Qed.

(** C5. For every custom error [e] and every starting state [s], [error(e)]
    sets [code] to the code of [e] as given, [success] to [false], [payload]
    to [null], and [message] to the message of [e] when that is not empty
    (an empty one leaves the previous message);
    [error({code: 401, message: "no token"})] yields
    [{code: 401, success: false, message: "no token", payload: null}]. *)
Theorem error_populates (e : IHttpError.t) (s : Status) :
  error e s
  = mkStatus (IHttpError.code e) false
      (if String.eqb (IHttpError.message e) ""
       then message s else IHttpError.message e)
      JSNull
  /\ error (IHttpError.mk "Error" "no token" None 401) s
     = mkStatus 401 false "no token" JSNull.
Proof.
  rewrite !error_fields, string_truthy_nonempty.
  split; [|reflexivity].
  now destruct (String.eqb (IHttpError.message e) "").
Qed.

(** C6. For every error [e] and every starting state [s], [genericError(e)]
    sets [code] to 500 whatever the input, [success] to [false], [payload]
    to [null], and [message] to the message of [e] when that is not empty;
    [genericError({message: "boom"})] yields
    [{code: 500, success: false, message: "boom", payload: null}]. *)
Theorem genericError_populates (e : Error.t) (s : Status) :
  genericError e s
  = mkStatus 500 false
      (if String.eqb (Error.message e) "" then message s else Error.message e)
      JSNull
  /\ genericError (Error.mk "Error" "boom" None) s
     = mkStatus 500 false "boom" JSNull.
Proof.
  rewrite !genericError_fields, string_truthy_nonempty.
  split; [|reflexivity].
  now destruct (String.eqb (Error.message e) "").
Qed.

(** C7. Each populating method is idempotent: calling it a second time with
    the same arguments leaves the value object as the first call left it,
    for every choice of arguments and every starting state. *)
Theorem populating_idempotent (s : Status) :
  (forall c p, successStatus c p (successStatus c p s) = successStatus c p s)
  /\ (forall o, successOK o (successOK o s) = successOK o s)
  /\ (forall c, errorStatus c (errorStatus c s) = errorStatus c s)
  /\ (forall e, error e (error e s) = error e s)
  /\ (forall e, genericError e (genericError e s) = genericError e s).
Proof.
  repeat split; intros.
  - rewrite !successStatus_fields; cbn [message payload].
    destruct (StatusMessages !! c) as [m|]; [destruct (string_truthy m)|];
      destruct (ToBoolean p); reflexivity.
  - rewrite !successOK_merge_first.
    now rewrite set_assign_success, set_assign_code, set_set.
  - rewrite !errorStatus_fields; cbn [message].
    destruct (StatusMessages !! c) as [m|]; [destruct (string_truthy m)|];
      reflexivity.
  - rewrite !error_fields; cbn [message].
    now destruct (string_truthy (IHttpError.message e)).
  - rewrite !genericError_fields; cbn [message].
    now destruct (string_truthy (Error.message e)).
Qed.

(** C8. For every member [c] of [StatusCode] and every payload [p],
    [Status.SUCCESS(c, p)] is the value object obtained by constructing a
    fresh instance and calling [successStatus(c, p)] on it, and
    [Status.ERR(c)] the one obtained by constructing a fresh instance and
    calling [errorStatus(c)] on it. *)
Theorem static_constructors (c : StatusCode.t) (p : JSValue) :
  SUCCESS (StatusCode.value c) p
  = successStatus (StatusCode.value c) p new_Status
  /\ ERR (StatusCode.value c) = errorStatus (StatusCode.value c) new_Status
  /\ SUCCESS (StatusCode.value c) p
     = mkStatus (StatusCode.value c) true (default_message c)
         (if ToBoolean p then p else JSNull)
  /\ ERR (StatusCode.value c)
     = mkStatus (StatusCode.value c) false (default_message c) JSNull.
Proof.
  destruct (StatusMessages_member c) as [Hm Ht].
  unfold SUCCESS, ERR.
  rewrite successStatus_fields, errorStatus_fields, Hm, Ht.
  repeat split; reflexivity.
Qed.

(** C9. For every code [c] that is not a member of [StatusCode] and every
    starting state [s], [errorStatus(c)] still returns: it sets [code] to
    [c], [success] to [false] and [payload] to [null], the table lookup
    misses, and [message] keeps its previous value. *)
Theorem errorStatus_unknown_code (c : Z) (s : Status) :
  (forall sc : StatusCode.t, StatusCode.value sc <> c) ->
  StatusMessages !! c = None
  /\ errorStatus c s = mkStatus c false (message s) JSNull.
Proof.
  intros H. apply StatusMessages_miss in H.
  now rewrite errorStatus_fields, H.
Qed.

(** The code 299 is in no member of the enumeration: on a populated object
    [errorStatus(299)] keeps the message and clears the payload. *)
Lemma errorStatus_unknown_code_witness :
  StatusMessages !! 299 = None
  /\ errorStatus 299 (mkStatus 200 true "done" (JSString "body"))
     = mkStatus 299 false "done" JSNull.
Proof.
  apply (errorStatus_unknown_code 299 (mkStatus 200 true "done"
                                         (JSString "body"))).
  intros sc; destruct sc; vm_compute; discriminate.
Defined.

(** C10. In every state reachable from a freshly constructed value object by
    populating calls, with any arguments, [success = false] implies
    [payload = null]; put the other way, a payload other than [null] comes
    only with [success = true]. *)
Theorem failure_has_no_payload (s : Status) :
  reachable s ->
  (success s = false -> payload s = JSNull)
  /\ (payload s <> JSNull -> success s = true).
Proof.
  intros R.
  assert (G : success s = true \/ payload s = JSNull).
  { induction R as [|op this R IH].
    - now right.
    - destruct op; cbn [call].
      + left. unfold successStatus. now rewrite set_success.
      + left. unfold successOK. now rewrite set_success.
      + right. unfold errorStatus. now rewrite set_payload.
      + right. unfold error. now rewrite set_payload.
      + right. unfold genericError. now rewrite set_payload. }
  destruct G as [G|G]; split; intros H; congruence.
Qed.

(** After [successOK({message: "done", payload: {id: 1}})] and then
    [errorStatus(404)] on a fresh object, the payload is [null]. *)
Lemma failure_has_no_payload_witness :
  payload (call (CallErrorStatus 404)
             (call (CallSuccessOK
                      (PartialIStatus.mk None None (Some "done")
                         (Some (JSObject [("id", JSNumber (S754_finite false 1 0))]))))
                new_Status))
  = JSNull.
Proof.
  apply (failure_has_no_payload _
           (reachable_call _ _ (reachable_call _ _ reachable_new))).
  reflexivity.
Defined.

(** ** Further properties of the populating methods *)

(** X1. [successOK(options)] sets [code] to 200 and [success] to [true] for
    every [options]; it takes [message] and [payload] from [options] only
    when they are truthy and keeps the previous ones otherwise; a [code] or
    [success] property in [options] has no effect at all. *)
Theorem successOK_populates (o : PartialIStatus.t) (s : Status) :
  code (successOK o s) = 200
  /\ success (successOK o s) = true
  /\ message (successOK o s)
     = match PartialIStatus.message o with
       | Some m => if String.eqb m "" then message s else m
       | None => message s
       end
  /\ payload (successOK o s)
     = match PartialIStatus.payload o with
       | Some p => if ToBoolean p then p else payload s
       | None => payload s
       end
  /\ successOK o s
     = successOK (PartialIStatus.mk None None (PartialIStatus.message o)
                    (PartialIStatus.payload o)) s.
Proof.
  rewrite !successOK_fields. unfold merged_message, merged_payload.
  cbn [code success message payload PartialIStatus.message
         PartialIStatus.payload].
  repeat split.
  destruct (PartialIStatus.message o) as [m|]; [|reflexivity].
  rewrite string_truthy_nonempty. now destruct (String.eqb m "").
Qed.

(** X2. With a code outside the enumeration, [successStatus] finds no message in
    the table: it sets [code] and [success], merges the payload as usual and
    leaves [message] as it was. *)
Theorem successStatus_unknown_code (c : Z) (p : JSValue) (s : Status) :
  (forall sc : StatusCode.t, StatusCode.value sc <> c) ->
  successStatus c p s
  = mkStatus c true (message s) (if ToBoolean p then p else payload s).
Proof.
  intros H. apply StatusMessages_miss in H.
  now rewrite successStatus_fields, H.
Qed.

(** 299 is no member: the message of the earlier [errorStatus(404)] stays. *)
Lemma successStatus_unknown_code_witness :
  successStatus 299 (JSString "body")
    (mkStatus 404 false "Resource not found." JSNull)
  = mkStatus 299 true "Resource not found." (JSString "body").
Proof.
  apply (successStatus_unknown_code 299 (JSString "body")
           (mkStatus 404 false "Resource not found." JSNull)).
  intros sc; destruct sc; vm_compute; discriminate.
Defined.

(** X3. With a code outside the enumeration, the static constructors return an
    object whose message is still the empty string of the constructor. *)
Theorem static_constructors_unknown_code (c : Z) (p : JSValue) :
  (forall sc : StatusCode.t, StatusCode.value sc <> c) ->
  ERR c = mkStatus c false "" JSNull
  /\ SUCCESS c p = mkStatus c true "" (if ToBoolean p then p else JSNull).
Proof.
  intros H. apply StatusMessages_miss in H. unfold ERR, SUCCESS.
  now rewrite successStatus_fields, errorStatus_fields, H.
Qed.

Lemma static_constructors_unknown_code_witness :
  ERR 600 = mkStatus 600 false "" JSNull
  /\ SUCCESS 600 JSZero = mkStatus 600 true "" JSNull.
Proof.
  apply (static_constructors_unknown_code 600 JSZero).
  intros sc; destruct sc; vm_compute; discriminate.
Defined.

(** X4. A success call does not reset the text of an earlier error: after
    [errorStatus(c)] for a member [c], [successOK] with no message (or with
    the empty one) yields code 200 and [success = true] with the error
    message of [c]; the payload is the given one when truthy, else [null]. *)
Theorem successOK_keeps_error_message
  (c : StatusCode.t) (oc : option Z) (ob : option bool)
  (op : option JSValue) (s : Status) :
  let kept := match op with
              | Some p => if ToBoolean p then p else JSNull
              | None => JSNull
              end in
  successOK (PartialIStatus.mk oc ob None op)
    (errorStatus (StatusCode.value c) s)
  = mkStatus 200 true (default_message c) kept
  /\ successOK (PartialIStatus.mk oc ob (Some "") op)
       (errorStatus (StatusCode.value c) s)
     = mkStatus 200 true (default_message c) kept.
Proof.
  destruct (StatusMessages_member c) as [Hm Ht].
  rewrite !successOK_fields, errorStatus_fields, Hm, Ht.
  split; reflexivity.
Qed.

(** The payload invariant of one call: null or truthy stays null or
    truthy. *)
Lemma call_payload_null_or_truthy (op : Op) (s : Status) :
  payload s = JSNull \/ ToBoolean (payload s) = true ->
  payload (call op s) = JSNull \/ ToBoolean (payload (call op s)) = true.
Proof.
  intros H. destruct op as [c p|o|c|e|e]; cbn [call].
  - rewrite successStatus_fields; cbn [payload].
    destruct (ToBoolean p) eqn:E; [now right|assumption].
  - rewrite successOK_fields; cbn [payload]. unfold merged_payload.
    destruct (PartialIStatus.payload o) as [p|]; [|assumption].
    destruct (ToBoolean p) eqn:E; [now right|assumption].
  - left. now rewrite errorStatus_fields.
  - left. now rewrite error_fields.
  - left. now rewrite genericError_fields.
Qed.

(** A non-empty message survives one call. *)
Lemma call_message_nonempty (op : Op) (s : Status) :
  message s <> "" -> message (call op s) <> "".
Proof.
  assert (T : forall m : string, string_truthy m = true -> m <> "").
  { intros m Hm E. rewrite E in Hm. discriminate. }
  intros H. destruct op as [c p|o|c|e|e]; cbn [call].
  - rewrite successStatus_fields; cbn [message].
    destruct (StatusMessages !! c) as [m|]; [|assumption].
    destruct (string_truthy m) eqn:E; [now apply T|assumption].
  - rewrite successOK_fields; cbn [message]. unfold merged_message.
    destruct (PartialIStatus.message o) as [m|]; [|assumption].
    destruct (string_truthy m) eqn:E; [now apply T|assumption].
  - rewrite errorStatus_fields; cbn [message].
    destruct (StatusMessages !! c) as [m|]; [|assumption].
    destruct (string_truthy m) eqn:E; [now apply T|assumption].
  - rewrite error_fields; cbn [message].
    destruct (string_truthy (IHttpError.message e)) eqn:E;
      [now apply T|assumption].
  - rewrite genericError_fields; cbn [message].
    destruct (string_truthy (Error.message e)) eqn:E;
      [now apply T|assumption].
Qed.

(** Running a sequence that ends with [op]. *)
Lemma run_snoc (ops : list Op) (op : Op) (s : Status) :
  run (ops ++ [op]) s = call op (run ops s).
Proof. unfold run. now rewrite foldl_app. Qed.

(** X5. Whatever populating calls are made on a fresh object, with any
    arguments, its payload is [null] or a truthy value: no call can store
    [0], [NaN], the empty string, [false] or [undefined] as the payload. *)
Theorem payload_null_or_truthy (ops : list Op) :
  payload (run ops new_Status) = JSNull
  \/ ToBoolean (payload (run ops new_Status)) = true.
Proof.
  induction ops as [|op ops IH] using rev_ind.
  - now left.
  - rewrite run_snoc. now apply call_payload_null_or_truthy.
Qed.

(** X6. No populating call clears the message: once [message] is not empty, it
    is not empty after any further sequence of calls. *)
Theorem message_never_cleared (ops : list Op) (s : Status) :
  message s <> "" -> message (run ops s) <> "".
Proof.
  intros H. induction ops as [|op ops IH] using rev_ind.
  - exact H.
  - rewrite run_snoc. now apply call_message_nonempty.
Qed.

(** After [errorStatus(404)], neither an error with an empty message nor
    [successOK({})] empties the message. *)
Lemma message_never_cleared_witness :
  message (run [CallGenericError (Error.mk "Error" "" None);
                CallSuccessOK PartialIStatus.empty]
             (mkStatus 404 false "Resource not found." JSNull))
  <> "".
Proof.
  apply (message_never_cleared
           [CallGenericError (Error.mk "Error" "" None);
            CallSuccessOK PartialIStatus.empty]
           (mkStatus 404 false "Resource not found." JSNull)).
  discriminate.
Defined.

(** X7. The success methods cannot take a payload away: when [payload] is not
    [null] before [successStatus] or [successOK], it is not [null] after,
    whatever the arguments (only the error methods reset it). *)
Theorem success_keeps_payload
  (c : Z) (p : JSValue) (o : PartialIStatus.t) (s : Status) :
  payload s <> JSNull ->
  payload (successStatus c p s) <> JSNull
  /\ payload (successOK o s) <> JSNull.
Proof.
  intros H. rewrite successStatus_fields, successOK_fields; cbn [payload].
  unfold merged_payload. split.
  - destruct (ToBoolean p) eqn:E; [|assumption].
    intros ->. discriminate.
  - destruct (PartialIStatus.payload o) as [q|]; [|assumption].
    destruct (ToBoolean q) eqn:E; [|assumption].
    intros ->. discriminate.
Qed.

(** Passing [null] as the payload leaves the earlier payload in place. *)
Lemma success_keeps_payload_witness :
  payload (successStatus 200 JSNull (mkStatus 201 true "" (JSString "a")))
  <> JSNull
  /\ payload (successOK (PartialIStatus.mk None None None (Some JSNull))
                (mkStatus 201 true "" (JSString "a")))
     <> JSNull.
Proof.
  apply (success_keeps_payload 200 JSNull
           (PartialIStatus.mk None None None (Some JSNull))
           (mkStatus 201 true "" (JSString "a"))).
  discriminate.
Defined.

(** X8. The last call wins for [code] and [success]: after a populating call
    these two fields are what the call sets on a fresh object, whatever
    calls were made before and whatever the state they started from. *)
Theorem last_call_sets_code_and_success
  (ops : list Op) (op : Op) (s : Status) :
  code (run (ops ++ [op]) s) = code (call op new_Status)
  /\ success (run (ops ++ [op]) s) = success (call op new_Status).
Proof.
  rewrite run_snoc. generalize (run ops s) as s'. intros s'.
  destruct op as [c p|o|c|e|e]; cbn [call];
    rewrite ?successStatus_fields, ?successOK_fields, ?errorStatus_fields,
      ?error_fields, ?genericError_fields;
    split; reflexivity.
Qed.

(** ** Further properties of the catalog *)

(** X9. No two members of [StatusCode] stand for the same number. *)
Theorem StatusCode_value_injective (c1 c2 : StatusCode.t) :
  StatusCode.value c1 = StatusCode.value c2 -> c1 = c2.
Proof.
  destruct c1; destruct c2; intros H; try reflexivity; discriminate H.
Qed.

Lemma StatusCode_value_injective_witness :
  StatusCode.NOT_FOUND = StatusCode.NOT_FOUND.
Proof.
  apply (StatusCode_value_injective StatusCode.NOT_FOUND StatusCode.NOT_FOUND).
  reflexivity.
Defined.

(** X10. The keys of [StatusMessages] are exactly the numbers of the members of
    [StatusCode]: a lookup succeeds for those and for nothing else. *)
Theorem StatusMessages_keys_exact (k : Z) :
  is_Some (StatusMessages !! k) <-> exists c, StatusCode.value c = k.
Proof.
  split.
  - intros [m Hm]. now apply StatusMessages_keys in Hm.
  - intros [c <-]. exists (default_message c).
    now destruct (StatusMessages_member c).
Qed.

(** Every member is listed in [StatusCode_members]. *)
Lemma StatusCode_members_complete (c : StatusCode.t) :
  c ∈ StatusCode_members.
Proof.
  apply list_elem_of_In. destruct c; vm_compute; tauto.
Qed.





(** X11. The compiled enumeration maps both ways: for every member, the object
    holds the member's number under its name and the member's name under its
    number, so reading one and then the other comes back to the start. *)
Theorem StatusCode_object_round_trip (c : StatusCode.t) :
  StatusCode_object !! StatusCode_name c
  = Some (EnumNumber (StatusCode.value c))
  /\ StatusCode_object !! ToPropertyKey (StatusCode.value c)
     = Some (EnumName (StatusCode_name c)).
Proof. destruct c; split; vm_compute; reflexivity. Qed.


